(** * The email verification stage of authentik

    A shallow embedding of [authentik/stages/email/stage.py]: the challenge
    response that is always declared invalid, the token lookup of
    [EmailStageView.get_token], the mail built by [send_email], and the
    request handlers [get], [challenge_valid] and [challenge_invalid].

    Python objects that the view reaches through [self] (the request, the
    executor with its plan context), the database tables it reads and writes,
    the outgoing mail queue and the flash messages are gathered in one
    [State] record that every method threads explicitly. *)

From Stdlib Require Import ZArith Lia.
From stdpp Require Import gmap strings list fin_maps infinite.

Local Open Scope string_scope.

(** ** Data model *)

(** The attributes the stage touches on a user object: an account of
    [authentik.core.models.User] or, for a visitor who is not logged in,
    Django's [AnonymousUser], which [request.user] then is.  The attribute
    [is_anonymous] tells the two apart; an anonymous user has no row in the
    users table. *)
Record User := {
  user_pk : nat;
  username : string;
  email : string;
  is_active : bool;
  is_anonymous : bool;
}.

(** [user.is_active = b], on any user object. *)
Definition set_is_active (b : bool) (u : User) : User :=
  {| user_pk := user_pk u; username := username u; email := email u;
     is_active := b; is_anonymous := is_anonymous u |}.

(** Values that live in the plan context, a [dict[str, Any]]. *)
Inductive Value :=
| VNone
| VBool (b : bool)
| VInt (n : Z)
| VStr (s : string)
| VUser (u : User).

(** Python truthiness, as tested by [if not email] and by the [and] of
    [EmailStageView.get]. *)
Definition truthy (v : Value) : bool :=
  match v with
  | VNone => false
  | VBool b => b
  | VInt n => negb (n =? 0)%Z
  | VStr s => negb (String.eqb s "")
  | VUser _ => true
  end.

(** [authentik.stages.email.models.EmailStage]: the configuration read
    through [self.executor.current_stage]. *)
Record EmailStage := {
  name : string;
  token_expiry : Z;
  activate_user_on_success : bool;
  subject : string;
  template : string;
}.

Record Flow := { slug : string }.

Record FlowPlan := { context : gmap string Value }.

Module FlowToken.
(** One row of the [FlowToken] table. *)
Record t := mk {
  identifier : string;
  key : string;
  expires : Z;
  user : User;
  flow : Flow;
  _plan : string;
}.
End FlowToken.

Record HttpRequest := {
  session : gmap string (gmap string string);
  user : User;
}.

Record FlowExecutorView := {
  flow : Flow;
  current_stage : EmailStage;
  plan : FlowPlan;
}.

Inductive InterfaceType := FLOW.
Inductive ChallengeTypes := NATIVE.

Record Challenge := {
  challenge_type : ChallengeTypes;
  title : string;
  component : string;
}.

(** [rest_framework.serializers.ValidationError(detail, code)]. *)
Record ValidationError := {
  detail : string;
  code : string;
}.

(** A bound serializer: the submitted data and, once [is_valid] has run, the
    errors it collected. *)
Record ChallengeResponse := {
  initial_data : gmap string Value;
  errors : list ValidationError;
}.

Record TemplateContext := {
  ctx_url : string;
  ctx_user : User;
  ctx_expires : Z;
}.

Record TemplateEmailMessage := {
  msg_subject : string;
  to : list Value;
  language : string;
  template_name : string;
  template_context : TemplateContext;
}.

Inductive MessageLevel := SUCCESS | ERROR.

(** Exceptions that leave a handler of the stage. *)
Inductive Exception := NotImplementedError.

(** How a call of a handler ends: with a response handed back to the
    executor, or with an exception that nothing in the stage catches.
    [executor.stage_ok()] and [executor.stage_invalid()] belong to the flow
    executor, which is not part of this file: their responses are kept
    symbolic. *)
Inductive HttpResponse :=
| StageOk
| StageInvalid
| HttpChallengeResponse (challenge : Challenge) (response_errors : list ValidationError)
| Raised (exception : Exception).

(** Everything a request handler of the view can read or write.  Instants
    and durations are integers counting microseconds, the resolution of
    [datetime] and [timedelta]. *)
Record State := {
  request : HttpRequest;
  executor : FlowExecutorView;
  flow_tokens : list FlowToken.t;
  users : gmap nat User;
  clock : Z;
  outbox : list (EmailStage * TemplateEmailMessage);
  messages : list (MessageLevel * string);
}.

Definition with_request (r : HttpRequest) (st : State) : State :=
  {| request := r; executor := executor st; flow_tokens := flow_tokens st;
     users := users st; clock := clock st; outbox := outbox st;
     messages := messages st |}.

Definition with_context (c : gmap string Value) (st : State) : State :=
  {| request := request st;
     executor := {| flow := flow (executor st);
                    current_stage := current_stage (executor st);
                    plan := {| context := c |} |};
     flow_tokens := flow_tokens st; users := users st; clock := clock st;
     outbox := outbox st; messages := messages st |}.

Definition with_flow_tokens (ts : list FlowToken.t) (st : State) : State :=
  {| request := request st; executor := executor st; flow_tokens := ts;
     users := users st; clock := clock st; outbox := outbox st;
     messages := messages st |}.

Definition with_users (us : gmap nat User) (st : State) : State :=
  {| request := request st; executor := executor st;
     flow_tokens := flow_tokens st; users := us; clock := clock st;
     outbox := outbox st; messages := messages st |}.

Definition with_clock (t : Z) (st : State) : State :=
  {| request := request st; executor := executor st;
     flow_tokens := flow_tokens st; users := users st; clock := t;
     outbox := outbox st; messages := messages st |}.

Definition with_outbox (o : list (EmailStage * TemplateEmailMessage))
    (st : State) : State :=
  {| request := request st; executor := executor st;
     flow_tokens := flow_tokens st; users := users st; clock := clock st;
     outbox := o; messages := messages st |}.

Definition with_messages (m : list (MessageLevel * string)) (st : State) : State :=
  {| request := request st; executor := executor st;
     flow_tokens := flow_tokens st; users := users st; clock := clock st;
     outbox := outbox st; messages := m |}.

(** The plan context of a state, [self.executor.plan.context]. *)
Abbreviation ctx st := (context (plan (executor st))).

(** ** Constants *)

Definition PLAN_CONTEXT_EMAIL_SENT : string := "email_sent".
Definition PLAN_CONTEXT_EMAIL_OVERRIDE : string := "email".

(** Modelled from the spec: [PLAN_CONTEXT_PENDING_USER] is imported from
    [authentik.flows.planner], which is absent; the data model names the
    context key [pending_user]. *)
Definition PLAN_CONTEXT_PENDING_USER : string := "pending_user".

(** Modelled from the spec: [PLAN_CONTEXT_IS_RESTORED] is imported from
    [authentik.flows.planner], which is absent; the data model names the
    context key [is_restored]. *)
Definition PLAN_CONTEXT_IS_RESTORED : string := "is_restored".

(** ** Collaborators *)

(** Library functions of Django and the REST framework that the stage calls.
    Nothing about them is assumed. *)
Class Django := {
  slugify : string → string;
  gettext : string → string;
  urlencode : list (string * string) → string;
  build_absolute_uri : HttpRequest → string → string;
  (** Field-level validation of a serializer, run before [validate]. *)
  to_internal_value : gmap string Value → list ValidationError + gmap string Value;
}.

(** Constants and helpers of authentik modules outside the stage: the
    reserved query key and the session key of the executor, the URL
    resolver of the interfaces, the string form and locale of a user, the
    serialisation of a plan, and the lifetime a renewed token is given. *)
Class Authentik := {
  QS_KEY_TOKEN : string;
  SESSION_KEY_GET : string;
  reverse_interface : HttpRequest → InterfaceType → string → string;
  User_str : User → string;
  User_locale : User → HttpRequest → string;
  FlowToken_pickle : FlowPlan → string;
  default_token_duration : N;
}.

(** A concrete choice of collaborators, used to run the stage on examples. *)
Definition sample_django : Django := {|
  slugify := λ s, s;
  gettext := λ s, s;
  urlencode := λ kwargs, String.concat "&" ((λ kv, kv.1 ++ "=" ++ kv.2) <$> kwargs);
  build_absolute_uri := λ _ path, "https://id.example" ++ path;
  to_internal_value := λ data, inr data;
|}.

Definition sample_authentik : Authentik := {|
  QS_KEY_TOKEN := "flow_token";
  SESSION_KEY_GET := "authentik/flows/get";
  reverse_interface := λ _ _ flow_slug, "/if/flow/" ++ flow_slug ++ "/";
  User_str := λ u, if is_anonymous u then "AnonymousUser" else username u;
  User_locale := λ _ _, "en";
  FlowToken_pickle := λ _, "pickled-plan";
  default_token_duration := 1800000000;
|}.

Definition alice : User :=
  {| user_pk := 7; username := "alice"; email := "alice@example.org";
     is_active := false; is_anonymous := false |}.

(** Django's [AnonymousUser]: no name, not active, no row. *)
Definition anonymous : User :=
  {| user_pk := 0; username := ""; email := ""; is_active := false;
     is_anonymous := true |}.

Definition sample_stage (expiry : Z) (activate : bool) : EmailStage :=
  {| name := "verify"; token_expiry := expiry;
     activate_user_on_success := activate;
     subject := "Confirm your address"; template := "email/account_confirmation.html" |}.

(** A state at instant [t] with an empty token table, the given session and
    plan context, and a stage with [token_expiry = expiry]. *)
Definition sample_state (sess : gmap string (gmap string string))
    (ctx : gmap string Value) (expiry : Z) (activate : bool) (t : Z) : State :=
  {| request := {| session := sess; user := anonymous |};
     executor := {| flow := {| slug := "enrollment" |};
                    current_stage := sample_stage expiry activate;
                    plan := {| context := ctx |} |};
     flow_tokens := []; users := ∅; clock := t; outbox := []; messages := [] |}.

(** The session of a browser that followed the link of the mail. *)
Definition returning_session : gmap string (gmap string string) :=
  {[ "authentik/flows/get" := {[ "flow_token" := "0" ]} ]}.

(** A stored token of the sample stage for [alice], expiring at [t]. *)
Definition sample_token (t : Z) : FlowToken.t :=
  {| FlowToken.identifier := "ak-email-stage-verify-alice";
     FlowToken.key := "0";
     FlowToken.expires := t;
     FlowToken.user := alice;
     FlowToken.flow := {| slug := "enrollment" |};
     FlowToken._plan := "pickled-plan" |}.

(** Plan contexts of the examples: an enrollment that waits for [alice],
    the same plan restored from a token, and a restored plan without a
    pending user. *)
Definition pending_context : gmap string Value :=
  {[ "pending_user" := VUser alice ]}.

Definition restored_context : gmap string Value :=
  <[ "is_restored" := VBool true ]> pending_context.

Definition restored_empty_context : gmap string Value :=
  {[ "is_restored" := VBool true ]}.

(** One minute, in microseconds. *)
Definition minute : Z := 60000000.


(** Requests of the examples.  [first_visit]: alice reaches the stage for
    the first time.  [nobody_visit]: the plan has no pending user.
    [returning_alice]: alice followed the link of her mail and her plan was
    restored.  [returning_nobody]: a restored plan without a pending user.
    [stored_visit t e]: alice reaches the stage at instant [t] while the
    table holds her token, which expires at [e]. *)
Definition first_visit : State := sample_state ∅ pending_context 15 false 0.

Definition first_visit_16 : State := sample_state ∅ pending_context 16 false 0.

Definition nobody_visit : State := sample_state ∅ ∅ 15 false 0.

Definition returning_alice : State :=
  sample_state returning_session restored_context 15 true 0.

Definition returning_nobody : State :=
  sample_state returning_session restored_empty_context 15 true 0.

(** The same return on a stage that does not activate users. *)
Definition returning_nobody_plain : State :=
  sample_state returning_session restored_empty_context 15 false 0.

(** Alice's return once her account is active. *)
Definition returning_active_alice : State :=
  sample_state returning_session
    (<[ "pending_user" := VUser (set_is_active true alice) ]> restored_context)
    15 true 0.

Definition stored_visit (t e : Z) : State :=
  with_flow_tokens [sample_token e] (sample_state ∅ pending_context 15 false t).

(** Alice reaches a stage whose [token_expiry] is set to [-5]. *)
Definition negative_expiry_visit : State :=
  sample_state ∅ pending_context (-5) false 0.

Section Stage.
Context {dj : Django} {ak : Authentik}.

(** [timedelta(minutes=m)], in microseconds. *)
Definition timedelta (minutes : Z) : Z := (minutes * 60000000)%Z.

(** [now()] reads the clock of the request being served. *)
Definition now (st : State) : Z := clock st.

(** *** The token model *)

(** Modelled from the spec: [FlowToken.is_expired] is defined in the token
    model, which is absent; expiry is logical, by comparing the current
    instant with the stored timestamp. *)
Definition is_expired (st : State) (token : FlowToken.t) : bool :=
  bool_decide (FlowToken.expires token < now st)%Z.

(** Modelled from the spec: the default of the [key] column is absent; keys
    are opaque, random and unique in the table, so a generated key is one
    that no stored row carries. *)
Definition default_token_key (st : State) : string :=
  fresh (FlowToken.key <$> flow_tokens st).

(** Modelled from the spec: [FlowToken.expire_action] is defined in the
    token model, which is absent; rotation replaces the key, extends the
    expiry from the instant of access and preserves the identifier, the
    owner and the plan snapshot. *)
Definition expire_action (st : State) (token : FlowToken.t) : FlowToken.t :=
  {| FlowToken.identifier := FlowToken.identifier token;
     FlowToken.key := default_token_key st;
     FlowToken.expires := (now st + Z.of_N default_token_duration)%Z;
     FlowToken.user := FlowToken.user token;
     FlowToken.flow := FlowToken.flow token;
     FlowToken._plan := FlowToken._plan token |}.

(** [FlowToken.objects.filter(identifier=identifier)] followed by
    [.first()]: the first row, in insertion order, that carries the
    identifier, with its position in the table. [.exists()] holds exactly
    when there is such a row. *)
Definition objects_filter_first (identifier : string)
    (table : list FlowToken.t) : option (nat * FlowToken.t) :=
  list_find (λ token, FlowToken.identifier token = identifier) table.

(** [FlowToken.objects.create(...)]: the key column takes its default and
    the row is appended. *)
Definition objects_create (expires : Z) (user : User) (identifier : string)
    (flow : Flow) (_plan : string) (st : State) : State * FlowToken.t :=
  let token := {| FlowToken.identifier := identifier;
                  FlowToken.key := default_token_key st;
                  FlowToken.expires := expires;
                  FlowToken.user := user;
                  FlowToken.flow := flow;
                  FlowToken._plan := _plan |} in
  (with_flow_tokens (flow_tokens st ++ [token]) st, token).

(** *** The stage view *)

(** Modelled from the spec: [StageView.get_pending_user] is defined in
    [authentik.flows.stage], which is absent; it reads the pending-subject
    record of the plan context, and the user of the request stands in when
    the context holds none; for a visitor who is not logged in that user is
    the anonymous one. *)
Definition get_pending_user (st : State) : User :=
  match context (plan (executor st)) !! PLAN_CONTEXT_PENDING_USER with
  | Some (VUser u) => u
  | _ => user (request st)
  end.

(** The object returned by [get_pending_user] is shared with the place it
    was read from: an attribute assignment on it is seen there. *)
Definition assign_pending_user (u : User) (st : State) : State :=
  match context (plan (executor st)) !! PLAN_CONTEXT_PENDING_USER with
  | Some (VUser _) =>
      with_context (<[PLAN_CONTEXT_PENDING_USER := VUser u]>
                      (context (plan (executor st)))) st
  | _ => with_request {| session := session (request st); user := u |} st
  end.

(** [user.save()]: the row of an account is written; Django's
    [AnonymousUser.save] raises [NotImplementedError]. *)
Definition User_save (u : User) (st : State) : Exception + State :=
  if is_anonymous u then inl NotImplementedError
  else inr (with_users (<[user_pk u := u]> (users st)) st).

Definition get_full_url (st : State) (kwargs : list (string * string)) : string :=
  let base_url :=
    reverse_interface (request st) FLOW (slug (flow (executor st))) in
  let relative_url := base_url ++ "?" ++ urlencode kwargs in
  build_absolute_uri (request st) relative_url.

(** The identifier under which the token of a stage and user is stored. *)
Definition token_identifier (st : State) : string :=
  slugify ("ak-email-stage-" ++ name (current_stage (executor st)) ++ "-"
           ++ User_str (get_pending_user st)).

Definition get_token (st : State) : State * FlowToken.t :=
  let pending_user := get_pending_user st in
  let current_stage := current_stage (executor st) in
  let valid_delta := timedelta (token_expiry current_stage + 1) in
  let identifier := token_identifier st in
  match objects_filter_first identifier (flow_tokens st) with
  | None =>
      objects_create (now st + valid_delta)%Z pending_user identifier
        (flow (executor st)) (FlowToken_pickle (plan (executor st))) st
  | Some (row, token) =>
      if is_expired st token then
        let token := expire_action st token in
        (with_flow_tokens (<[row := token]> (flow_tokens st)) st, token)
      else (st, token)
  end.

(** [send_mails(current_stage, message)] queues one message. *)
Definition send_mails (stage : EmailStage) (message : TemplateEmailMessage)
    (st : State) : State :=
  with_outbox (outbox st ++ [(stage, message)]) st.

Definition send_email (st : State) : State :=
  let pending_user := get_pending_user st in
  let address :=
    default VNone (context (plan (executor st)) !! PLAN_CONTEXT_EMAIL_OVERRIDE) in
  let address :=
    if negb (truthy address) then VStr (email pending_user) else address in
  let current_stage := current_stage (executor st) in
  let '(st, token) := get_token st in
  let message :=
    {| msg_subject := gettext (subject current_stage);
       to := [address];
       language := User_locale pending_user (request st);
       template_name := template current_stage;
       template_context :=
         {| ctx_url := get_full_url st [(QS_KEY_TOKEN, FlowToken.key token)];
            ctx_user := pending_user;
            ctx_expires := FlowToken.expires token |} |} in
  send_mails current_stage message st.

Definition messages_add (level : MessageLevel) (text : string) (st : State) : State :=
  with_messages (messages st ++ [(level, text)]) st.

Definition get_challenge (st : State) : Challenge :=
  {| challenge_type := NATIVE; title := gettext "Email sent.";
     component := "ak-stage-email" |}.

(** Modelled from the spec: [ChallengeStageView.get] is defined in
    [authentik.flows.stage], which is absent; it renders the challenge of
    the stage and waits for the response. *)
Definition ChallengeStageView_get (st : State) : State * HttpResponse :=
  (st, HttpChallengeResponse (get_challenge st) []).

(** Modelled from the spec: [ChallengeStageView.challenge_invalid] is
    defined in [authentik.flows.stage], which is absent; it renders the
    challenge of the current stage again, with the errors of the response,
    and does not advance. *)
Definition ChallengeStageView_challenge_invalid (st : State)
    (response : ChallengeResponse) : State * HttpResponse :=
  (st, HttpChallengeResponse (get_challenge st) (errors response)).

(** The test that opens [get]: the reserved key is among the GET
    parameters stashed in the session, and the plan is flagged restored. *)
Definition came_back_from_link (st : State) : bool :=
  bool_decide (QS_KEY_TOKEN ∈
               dom (default ∅ (session (request st) !! SESSION_KEY_GET)))
  && truthy (default (VBool false)
               (context (plan (executor st)) !! PLAN_CONTEXT_IS_RESTORED)).

Definition get (st : State) : State * HttpResponse :=
  if came_back_from_link st then
    let st := messages_add SUCCESS (gettext "Successfully verified Email.") st in
    if activate_user_on_success (current_stage (executor st)) then
      let user := get_pending_user st in
      let user := set_is_active true user in
      let st := assign_pending_user user st in
      match User_save user st with
      | inl exception => (st, Raised exception)
      | inr st => (st, StageOk)
      end
    else (st, StageOk)
  else if bool_decide (PLAN_CONTEXT_PENDING_USER ∉
                       dom (context (plan (executor st)))) then
    let st := messages_add ERROR (gettext "No pending user.") st in
    (st, StageInvalid)
  else
    let st :=
      if bool_decide (PLAN_CONTEXT_EMAIL_SENT ∉
                      dom (context (plan (executor st)))) then
        let st := send_email st in
        with_context (<[PLAN_CONTEXT_EMAIL_SENT := VBool true]>
                        (context (plan (executor st)))) st
      else st in
    ChallengeStageView_get st.

Definition challenge_valid (st : State) (response : ChallengeResponse)
    : State * HttpResponse :=
  ChallengeStageView_challenge_invalid st response.

Definition challenge_invalid (st : State) (response : ChallengeResponse)
    : State * HttpResponse :=
  if bool_decide (PLAN_CONTEXT_PENDING_USER ∉
                  dom (context (plan (executor st)))) then
    let st := messages_add ERROR (gettext "No pending user.") st in
    ChallengeStageView_challenge_invalid st response
  else
    let st := send_email st in
    ChallengeStageView_challenge_invalid st response.

(** [EmailChallengeResponse.validate]: raises on every input. *)
Definition validate (attrs : gmap string Value)
    : ValidationError + gmap string Value :=
  inl {| detail := "email-sent"; code := "email-sent" |}.

(** [Serializer.is_valid] of the REST framework: the fields are converted
    first, then [validate] runs on the converted attributes; an error
    raised by either makes the response invalid. *)
Definition is_valid (data : gmap string Value)
    : list ValidationError + gmap string Value :=
  match to_internal_value data with
  | inl errs => inl errs
  | inr attrs =>
      match validate attrs with
      | inl err => inl [err]
      | inr validated => inr validated
      end
  end.

(** Modelled from the spec: [ChallengeStageView.post] is defined in
    [authentik.flows.stage], which is absent; on a response submission the
    stage validates the response and calls its handler for a valid or for
    an invalid response. *)
Definition post (st : State) (data : gmap string Value) : State * HttpResponse :=
  match is_valid data with
  | inl errs => challenge_invalid st {| initial_data := data; errors := errs |}
  | inr validated =>
      challenge_valid st {| initial_data := validated; errors := [] |}
  end.

(** The state of a return from the mail link on a stage that activates
    users, just before [user.save()]: the success message is recorded and
    [is_active] is assigned on the pending user. *)
Definition before_save (st : State) : State :=
  assign_pending_user (set_is_active true (get_pending_user st))
    (messages_add SUCCESS (gettext "Successfully verified Email.") st).

(** A browser request reaching the view: it brings its session and user,
    and is served at instant [t]. *)
Definition arrive (r : HttpRequest) (t : Z) (st : State) : State :=
  with_clock t (with_request r st).

(** A series of GET requests on one plan. *)
Fixpoint serve_gets (arrivals : list (HttpRequest * Z)) (st : State) : State :=
  match arrivals with
  | [] => st
  | (r, t) :: rest => serve_gets rest (get (arrive r t st)).1
  end.

(** The recipient as the documentation of the stage words it: the override
    of the plan context when there is a truthy one, the stored address of
    the pending user otherwise. *)
Definition recipient_spec (st : State) : Value :=
  match context (plan (executor st)) !! PLAN_CONTEXT_EMAIL_OVERRIDE with
  | Some v => if truthy v then v else VStr (email (get_pending_user st))
  | None => VStr (email (get_pending_user st))
  end.

(** The message that [send_email] builds in state [st]. *)
Definition email_message (st : State) : TemplateEmailMessage :=
  {| msg_subject := gettext (subject (current_stage (executor st)));
     to := [recipient_spec st];
     language := User_locale (get_pending_user st) (request st);
     template_name := template (current_stage (executor st));
     template_context :=
       {| ctx_url := get_full_url st [(QS_KEY_TOKEN, FlowToken.key (get_token st).2)];
          ctx_user := get_pending_user st;
          ctx_expires := FlowToken.expires (get_token st).2 |} |}.

(** A series of response submissions on one plan, each with its data. *)
Fixpoint serve_posts (arrivals : list (HttpRequest * Z * gmap string Value))
    (st : State) : State :=
  match arrivals with
  | [] => st
  | (r, t, data) :: rest => serve_posts rest (post (arrive r t st) data).1
  end.

End Stage.

(** ** Properties of the token lookup *)

Section TokenProperties.
Context {dj : Django} {ak : Authentik}.

Implicit Types (st : State) (token : FlowToken.t).

Lemma timedelta_add (a b : Z) :
  timedelta (a + b) = (timedelta a + timedelta b)%Z.
Proof. unfold timedelta. lia. Qed.

Lemma is_expired_true st token :
  is_expired st token = true ↔ (FlowToken.expires token < now st)%Z.
Proof. unfold is_expired. apply bool_decide_eq_true. Qed.

Lemma is_expired_false st token :
  is_expired st token = false ↔ (now st ≤ FlowToken.expires token)%Z.
Proof. unfold is_expired. rewrite bool_decide_eq_false. lia. Qed.

(** A generated key is carried by no row of the table. *)
Lemma default_token_key_fresh st token :
  token ∈ flow_tokens st → default_token_key st ≠ FlowToken.key token.
Proof.
  intros Hin Heq.
  apply (infinite_is_fresh (FlowToken.key <$> flow_tokens st)).
  fold (default_token_key st). rewrite Heq.
  apply list_elem_of_fmap. eauto.
Qed.

Lemma filter_first_lookup identifier (table : list FlowToken.t) row token :
  objects_filter_first identifier table = Some (row, token) →
  table !! row = Some token ∧ FlowToken.identifier token = identifier.
Proof.
  unfold objects_filter_first. rewrite list_find_Some.
  intros (Hrow & Hid & _). by split.
Qed.

(** The three paths of [get_token], one equation each. *)
Lemma get_token_absent st :
  objects_filter_first (token_identifier st) (flow_tokens st) = None →
  get_token st =
    objects_create
      (now st + timedelta (token_expiry (current_stage (executor st)) + 1))%Z
      (get_pending_user st) (token_identifier st) (flow (executor st))
      (FlowToken_pickle (plan (executor st))) st.
Proof. intros H. unfold get_token. by rewrite H. Qed.

Lemma get_token_fresh st row token :
  objects_filter_first (token_identifier st) (flow_tokens st) = Some (row, token) →
  is_expired st token = false →
  get_token st = (st, token).
Proof. intros H He. unfold get_token. by rewrite H, He. Qed.

Lemma get_token_stale st row token :
  objects_filter_first (token_identifier st) (flow_tokens st) = Some (row, token) →
  is_expired st token = true →
  get_token st =
    (with_flow_tokens (<[row := expire_action st token]> (flow_tokens st)) st,
     expire_action st token).
Proof. intros H He. unfold get_token. by rewrite H, He. Qed.

(** [get_token] writes to the token table and to nothing else. *)
Lemma get_token_frame st :
  let st' := (get_token st).1 in
  request st' = request st ∧ executor st' = executor st ∧
  users st' = users st ∧ clock st' = clock st ∧
  outbox st' = outbox st ∧ messages st' = messages st.
Proof.
  unfold get_token.
  destruct (objects_filter_first _ _) as [[row token]|]; simpl.
  - destruct (is_expired st token); simpl; by repeat split.
  - by repeat split.
Qed.

(** Whatever path it takes, [get_token] returns a token that carries the
    identifier of the stage and user and that is, afterwards, the first
    row of the table with that identifier. *)
Lemma get_token_stored st :
  ∃ row,
    objects_filter_first (token_identifier st) (flow_tokens (get_token st).1)
    = Some (row, (get_token st).2).
Proof.
  destruct (objects_filter_first (token_identifier st) (flow_tokens st))
    as [[row token]|] eqn:Hfind.
  - destruct (is_expired st token) eqn:He.
    + rewrite (get_token_stale _ _ _ Hfind He). simpl. exists row.
      unfold objects_filter_first in *.
      apply list_find_Some in Hfind as (Hrow & Hid & Hleast).
      apply list_find_insert_Some. right; left.
      split_and!; eauto using lookup_lt_Some.
    + rewrite (get_token_fresh _ _ _ Hfind He). simpl. eauto.
  - rewrite (get_token_absent _ Hfind). simpl.
    exists (length (flow_tokens st)).
    unfold objects_filter_first in *.
    rewrite (list_find_app_r _ _ _ Hfind). simpl.
    case_decide; [|done]. simpl. done.
Qed.

(** C4: two calls of [get_token] for the same stage name and pending user,
    the second one made before the token returned by the first has
    expired, yield the same key: the second call returns the token of the
    first and creates nothing. *)
Theorem get_token_twice_same_key st st2 :
  flow_tokens st2 = flow_tokens (get_token st).1 →
  name (current_stage (executor st2)) = name (current_stage (executor st)) →
  get_pending_user st2 = get_pending_user st →
  is_expired st2 (get_token st).2 = false →
  FlowToken.key (get_token st2).2 = FlowToken.key (get_token st).2
  ∧ get_token st2 = (st2, (get_token st).2).
Proof.
  intros Htable Hname Huser Hlive.
  assert (token_identifier st2 = token_identifier st) as Hid.
  { unfold token_identifier. by rewrite Hname, Huser. }
  destruct (get_token_stored st) as [row Hrow].
  rewrite <- Htable, <- Hid in Hrow.
  rewrite (get_token_fresh _ _ _ Hrow Hlive). done.
Qed.

(** C5, as the code has it: when no token exists for the identifier, the
    token that [get_token] creates expires [token_expiry + 1] minutes
    after the instant of creation, one minute more than the configured
    [token_expiry]; it carries the identifier and is appended to the
    table. *)
Theorem get_token_created_expiry st :
  objects_filter_first (token_identifier st) (flow_tokens st) = None →
  FlowToken.expires (get_token st).2
  = (now st + timedelta (token_expiry (current_stage (executor st)))
     + timedelta 1)%Z
  ∧ FlowToken.identifier (get_token st).2 = token_identifier st
  ∧ flow_tokens (get_token st).1 = (flow_tokens st ++ [(get_token st).2])%list.
Proof.
  intros Hnone. rewrite (get_token_absent _ Hnone). simpl.
  rewrite timedelta_add. split_and!; [lia|done..].
Qed.

(** C6: an existing token that has not expired is returned as it is
    stored, and neither the table nor any other part of the state is
    written; this holds up to and including the instant of expiry. *)
Theorem get_token_existing_unchanged st row token :
  objects_filter_first (token_identifier st) (flow_tokens st) = Some (row, token) →
  is_expired st token = false →
  get_token st = (st, token)
  ∧ flow_tokens (get_token st).1 !! row = Some token.
Proof.
  intros Hfind Hlive. rewrite (get_token_fresh _ _ _ Hfind Hlive). simpl.
  split; [done|]. by apply filter_first_lookup in Hfind as [? _].
Qed.

(** C8: an existing token found expired is rotated: the identifier is
    kept, the key is replaced by one that differs from the old key, the
    expiry strictly increases, the rotated token replaces the old row and
    is the one [get_token] returns. *)
Theorem get_token_rotates_expired st row token :
  objects_filter_first (token_identifier st) (flow_tokens st) = Some (row, token) →
  is_expired st token = true →
  FlowToken.identifier (get_token st).2 = FlowToken.identifier token
  ∧ FlowToken.key (get_token st).2 ≠ FlowToken.key token
  ∧ (FlowToken.expires token < FlowToken.expires (get_token st).2)%Z
  ∧ (get_token st).2 = expire_action st token
  ∧ flow_tokens (get_token st).1 = <[row := (get_token st).2]> (flow_tokens st)
  ∧ flow_tokens (get_token st).1 !! row = Some (get_token st).2.
Proof.
  intros Hfind Hstale. rewrite (get_token_stale _ _ _ Hfind Hstale). simpl.
  apply filter_first_lookup in Hfind as [Hrow _].
  apply is_expired_true in Hstale.
  split_and!; try done.
  - apply default_token_key_fresh. by eapply list_elem_of_lookup_2.
  - lia.
  - apply list_lookup_insert_eq. by eapply lookup_lt_Some.
Qed.

End TokenProperties.

(** ** Properties of the request handlers *)

Section StageProperties.
Context {dj : Django} {ak : Authentik}.

Implicit Types (st : State) (response : ChallengeResponse).

Lemma recipient_spec_eq st :
  (let address := default VNone (ctx st !! PLAN_CONTEXT_EMAIL_OVERRIDE) in
   if negb (truthy address) then VStr (email (get_pending_user st)) else address)
  = recipient_spec st.
Proof.
  unfold recipient_spec.
  destruct (ctx st !! PLAN_CONTEXT_EMAIL_OVERRIDE) as [v|]; simpl; [|done].
  by destruct (truthy v).
Qed.

(** [send_email] queues exactly one message, for the current stage, and
    leaves the request, the executor, the users and the flash messages as
    they were. *)
Lemma send_email_effect st :
  send_email st =
    with_outbox (outbox st ++ [(current_stage (executor st), email_message st)])
      (get_token st).1.
Proof.
  unfold send_email. rewrite recipient_spec_eq.
  pose proof (get_token_frame st) as Hframe.
  unfold email_message, get_full_url.
  destruct (get_token st) as [st' token]. simpl in *.
  destruct Hframe as (Hreq & Hexec & _ & _ & Hout & _).
  unfold send_mails. by rewrite Hreq, Hexec, Hout.
Qed.

Lemma send_email_outbox st :
  outbox (send_email st)
  = (outbox st ++ [(current_stage (executor st), email_message st)])%list.
Proof. by rewrite send_email_effect. Qed.

Lemma send_email_frame st :
  request (send_email st) = request st ∧ executor (send_email st) = executor st ∧
  users (send_email st) = users st ∧ messages (send_email st) = messages st ∧
  clock (send_email st) = clock st.
Proof.
  rewrite send_email_effect. simpl.
  destruct (get_token_frame st) as (? & ? & ? & ? & ? & ?). by repeat split.
Qed.

Lemma came_back_from_link_true st :
  came_back_from_link st = true ↔
    QS_KEY_TOKEN ∈ dom (default ∅ (session (request st) !! SESSION_KEY_GET))
    ∧ truthy (default (VBool false) (ctx st !! PLAN_CONTEXT_IS_RESTORED)) = true.
Proof.
  unfold came_back_from_link. rewrite andb_true_iff, bool_decide_eq_true. done.
Qed.

Lemma in_context (c : gmap string Value) k :
  bool_decide (k ∉ dom c) = false ↔ is_Some (c !! k).
Proof.
  rewrite bool_decide_eq_false, <- elem_of_dom.
  split; [apply dec_stable | auto].
Qed.

Lemma not_in_context (c : gmap string Value) k :
  bool_decide (k ∉ dom c) = true ↔ c !! k = None.
Proof. by rewrite bool_decide_eq_true, not_elem_of_dom. Qed.

(** The paths of [get], one equation each. *)
Lemma get_came_back st :
  came_back_from_link st = true →
  get st =
    if activate_user_on_success (current_stage (executor st)) then
      if is_anonymous (get_pending_user st) then
        (before_save st, Raised NotImplementedError)
      else
        (with_users
           (<[user_pk (get_pending_user st)
              := set_is_active true (get_pending_user st)]>
              (users (before_save st)))
           (before_save st),
         StageOk)
    else (messages_add SUCCESS (gettext "Successfully verified Email.") st, StageOk).
Proof.
  intros H. unfold get, User_save, before_save. rewrite H. simpl.
  destruct (activate_user_on_success _); [|done].
  change (get_pending_user
            (messages_add SUCCESS (gettext "Successfully verified Email.") st))
    with (get_pending_user st).
  by destruct (is_anonymous (get_pending_user st)).
Qed.

Lemma get_no_pending_user st :
  came_back_from_link st = false →
  ctx st !! PLAN_CONTEXT_PENDING_USER = None →
  get st = (messages_add ERROR (gettext "No pending user.") st, StageInvalid).
Proof.
  intros H Hnone. unfold get. rewrite H.
  by rewrite (proj2 (not_in_context _ _) Hnone).
Qed.

Lemma get_first_display st :
  came_back_from_link st = false →
  is_Some (ctx st !! PLAN_CONTEXT_PENDING_USER) →
  ctx st !! PLAN_CONTEXT_EMAIL_SENT = None →
  get st =
    ChallengeStageView_get
      (with_context (<[PLAN_CONTEXT_EMAIL_SENT := VBool true]> (ctx (send_email st)))
         (send_email st)).
Proof.
  intros H Hsome Hnone. unfold get. rewrite H.
  rewrite (proj2 (in_context _ _) Hsome).
  by rewrite (proj2 (not_in_context _ _) Hnone).
Qed.

Lemma get_redisplay st :
  came_back_from_link st = false →
  is_Some (ctx st !! PLAN_CONTEXT_PENDING_USER) →
  is_Some (ctx st !! PLAN_CONTEXT_EMAIL_SENT) →
  get st = ChallengeStageView_get st.
Proof.
  intros H Hsome Hsent. unfold get. rewrite H.
  rewrite (proj2 (in_context _ _) Hsome).
  by rewrite (proj2 (in_context _ _) Hsent).
Qed.

(** The pending user after its [is_active] attribute was assigned. *)
Lemma get_pending_user_assigned st u :
  get_pending_user (assign_pending_user u st) = u.
Proof.
  unfold assign_pending_user, get_pending_user.
  destruct (ctx st !! PLAN_CONTEXT_PENDING_USER) as [[| | | |u0]|] eqn:E;
    simpl; rewrite ?E; try done.
  by rewrite lookup_insert_eq.
Qed.

(** What [before_save] writes: the flash messages, and the pending user in
    the place it was read from. *)
Lemma before_save_frame st :
  outbox (before_save st) = outbox st
  ∧ flow_tokens (before_save st) = flow_tokens st
  ∧ users (before_save st) = users st
  ∧ clock (before_save st) = clock st
  ∧ session (request (before_save st)) = session (request st)
  ∧ flow (executor (before_save st)) = flow (executor st)
  ∧ current_stage (executor (before_save st)) = current_stage (executor st).
Proof.
  unfold before_save, assign_pending_user. simpl.
  by destruct (ctx st !! PLAN_CONTEXT_PENDING_USER) as [[| | | |u0]|].
Qed.

Lemma before_save_pending_user st :
  get_pending_user (before_save st) = set_is_active true (get_pending_user st).
Proof. apply get_pending_user_assigned. Qed.

Lemma before_save_context st k :
  k ≠ PLAN_CONTEXT_PENDING_USER → ctx (before_save st) !! k = ctx st !! k.
Proof.
  intros Hk. unfold before_save, assign_pending_user. simpl.
  destruct (ctx st !! PLAN_CONTEXT_PENDING_USER) as [[| | | |u0]|]; simpl;
    try done.
  by rewrite lookup_insert_ne.
Qed.

Lemma before_save_dom st : dom (ctx (before_save st)) = dom (ctx st).
Proof.
  unfold before_save, assign_pending_user. simpl.
  destruct (ctx st !! PLAN_CONTEXT_PENDING_USER) as [[| | | |u0]|] eqn:Huser;
    simpl; try done.
  rewrite dom_insert_L.
  assert (PLAN_CONTEXT_PENDING_USER ∈ dom (ctx st)) as Hin.
  { apply elem_of_dom. by rewrite Huser. }
  apply leibniz_equiv. intros k. rewrite elem_of_union, elem_of_singleton.
  split; [intros [->|?]; done|auto].
Qed.

(** A return from the mail link queues no mail and leaves the marker as it
    was, whether it ends in [executor.stage_ok()] or not. *)
Lemma get_came_back_no_send st :
  came_back_from_link st = true →
  outbox (get st).1 = outbox st
  ∧ ctx (get st).1 !! PLAN_CONTEXT_EMAIL_SENT = ctx st !! PLAN_CONTEXT_EMAIL_SENT.
Proof.
  intros Hback. rewrite (get_came_back _ Hback).
  destruct (before_save_frame st) as (Hout & _).
  pose proof (before_save_context st PLAN_CONTEXT_EMAIL_SENT) as Hctx.
  destruct (activate_user_on_success _); [|done].
  destruct (is_anonymous _); simpl; split; auto.
Qed.

(** C1: a GET whose session-stashed GET parameters contain the reserved
    token key and whose plan context has a true restored flag returns
    [executor.stage_ok()] at once, queueing no mail; when the stage
    activates users on success, the pending user has [is_active = True]
    afterwards, in the object that [get_pending_user] returns and in the
    saved row, with its other fields as before.  The pending user is an
    account, as a pending user held in the plan context is: the anonymous
    user of a request has no row and cannot be saved. *)
Theorem get_restored_stage_ok st v :
  QS_KEY_TOKEN ∈ dom (default ∅ (session (request st) !! SESSION_KEY_GET)) →
  ctx st !! PLAN_CONTEXT_IS_RESTORED = Some v →
  truthy v = true →
  (activate_user_on_success (current_stage (executor st)) = true →
   is_anonymous (get_pending_user st) = false) →
  (get st).2 = StageOk
  ∧ outbox (get st).1 = outbox st
  ∧ (activate_user_on_success (current_stage (executor st)) = true →
     let activated := set_is_active true (get_pending_user st) in
     get_pending_user (get st).1 = activated
     ∧ is_active (get_pending_user (get st).1) = true
     ∧ users (get st).1 !! user_pk (get_pending_user st) = Some activated).
Proof.
  intros Hkey Hflag Htrue Haccount.
  assert (came_back_from_link st = true) as Hback.
  { apply came_back_from_link_true. by rewrite Hflag. }
  destruct (get_came_back_no_send _ Hback) as [Hout _].
  split_and!; [|done|].
  - rewrite (get_came_back _ Hback).
    destruct (activate_user_on_success _); [|done].
    by rewrite Haccount.
  - intros Hact. rewrite (get_came_back _ Hback), Hact, (Haccount Hact).
    cbn [fst]. cbv zeta.
    assert (get_pending_user
              (with_users
                 (<[user_pk (get_pending_user st)
                    := set_is_active true (get_pending_user st)]>
                    (users (before_save st)))
                 (before_save st))
            = set_is_active true (get_pending_user st)) as ->.
    { exact (before_save_pending_user st). }
    split_and!; [done..|]. simpl. by rewrite lookup_insert_eq.
Qed.

(** C2, as the code has it: on an entry whose plan context lacks the
    pending-user key no mail is queued, be the entry a GET or a response
    submission.  A GET that is not a return from the mail link records the
    error message "No pending user." and returns [executor.stage_invalid()];
    a GET that is such a return is answered by [executor.stage_ok()] when
    the stage does not activate users or the user of the request is an
    account; a response submission records the error message and returns
    what the base class's [challenge_invalid] returns, the challenge
    rendered again with the errors of the response. *)
Theorem no_pending_user_no_email st :
  ctx st !! PLAN_CONTEXT_PENDING_USER = None →
  outbox (get st).1 = outbox st
  ∧ (∀ data, outbox (post st data).1 = outbox st)
  ∧ (came_back_from_link st = false →
     get st = (messages_add ERROR (gettext "No pending user.") st, StageInvalid))
  ∧ (came_back_from_link st = true →
     activate_user_on_success (current_stage (executor st)) = false
     ∨ is_anonymous (user (request st)) = false →
     (get st).2 = StageOk)
  ∧ (∀ data, ∃ errs,
       is_valid data = inl errs
       ∧ post st data =
           ChallengeStageView_challenge_invalid
             (messages_add ERROR (gettext "No pending user.") st)
             {| initial_data := data; errors := errs |}).
Proof.
  intros Hnone.
  assert (∀ data, ∃ errs,
       is_valid data = inl errs
       ∧ post st data =
           ChallengeStageView_challenge_invalid
             (messages_add ERROR (gettext "No pending user.") st)
             {| initial_data := data; errors := errs |}) as Hpost.
  { intros data. unfold post, is_valid, validate.
    destruct (to_internal_value data) as [errs|attrs]; eexists; (split; [done|]);
      unfold challenge_invalid; by rewrite (proj2 (not_in_context _ _) Hnone). }
  split_and!; [| |intros Hback; by apply get_no_pending_user| |done].
  - destruct (came_back_from_link st) eqn:Hback.
    + by apply get_came_back_no_send.
    + by rewrite (get_no_pending_user _ Hback Hnone).
  - intros data. destruct (Hpost data) as (errs & _ & ->). done.
  - intros Hback Hsave. rewrite (get_came_back _ Hback).
    assert (get_pending_user st = user (request st)) as ->.
    { unfold get_pending_user. by rewrite Hnone. }
    destruct Hsave as [->| ->]; [done|].
    by destruct (activate_user_on_success _).
Qed.

(** A GET on a plan that already carries the marker queues no mail and
    keeps the marker, whatever else the request is. *)
Lemma get_marker_present st :
  is_Some (ctx st !! PLAN_CONTEXT_EMAIL_SENT) →
  outbox (get st).1 = outbox st
  ∧ is_Some (ctx (get st).1 !! PLAN_CONTEXT_EMAIL_SENT).
Proof.
  intros Hsent. destruct (came_back_from_link st) eqn:Hback.
  - destruct (get_came_back_no_send _ Hback) as [Hout Hctx].
    split; [done|]. by rewrite Hctx.
  - unfold get. rewrite Hback.
    destruct (bool_decide (PLAN_CONTEXT_PENDING_USER ∉ dom (ctx st))); [done|].
    by rewrite (proj2 (in_context _ _) Hsent).
Qed.

Lemma arrive_frame r t st :
  ctx (arrive r t st) = ctx st ∧ outbox (arrive r t st) = outbox st.
Proof. done. Qed.

(** Any number of GETs on a plan that carries the marker queue no mail. *)
Lemma serve_gets_marker_present arrivals st :
  is_Some (ctx st !! PLAN_CONTEXT_EMAIL_SENT) →
  outbox (serve_gets arrivals st) = outbox st.
Proof.
  revert st. induction arrivals as [|[r t] rest IH]; intros st Hsent; [done|].
  simpl. destruct (get_marker_present (arrive r t st)) as [Hout Hkeep]; [done|].
  by rewrite IH, Hout.
Qed.

(** C3, as the code has it: a GET that is not a return from the mail link,
    on a plan with a pending user and without the marker, queues exactly
    one mail, the one [send_email] builds, and sets the marker to [True];
    every later GET on that plan, whatever its session and instant, queues
    nothing, so that after any number of them the queue holds exactly that
    one additional mail.  A GET that is a return from the mail link queues
    no mail and leaves the marker as it was, set or not. *)
Theorem initial_email_sent_once st arrivals :
  (came_back_from_link st = false →
   is_Some (ctx st !! PLAN_CONTEXT_PENDING_USER) →
   ctx st !! PLAN_CONTEXT_EMAIL_SENT = None →
   outbox (get st).1
   = (outbox st ++ [(current_stage (executor st), email_message st)])%list
   ∧ ctx (get st).1 !! PLAN_CONTEXT_EMAIL_SENT = Some (VBool true)
   ∧ outbox (serve_gets arrivals (get st).1) = outbox (get st).1
   ∧ length (outbox (serve_gets arrivals (get st).1)) = S (length (outbox st)))
  ∧ (is_Some (ctx st !! PLAN_CONTEXT_EMAIL_SENT) →
     outbox (get st).1 = outbox st
     ∧ outbox (serve_gets arrivals st) = outbox st)
  ∧ (came_back_from_link st = true →
     outbox (get st).1 = outbox st
     ∧ ctx (get st).1 !! PLAN_CONTEXT_EMAIL_SENT
       = ctx st !! PLAN_CONTEXT_EMAIL_SENT).
Proof.
  split_and!.
  - intros Hback Huser Hmarker.
    assert (ctx (get st).1 !! PLAN_CONTEXT_EMAIL_SENT = Some (VBool true)) as Hset.
    { rewrite (get_first_display _ Hback Huser Hmarker). simpl.
      by rewrite lookup_insert_eq. }
    assert (outbox (get st).1
            = (outbox st ++ [(current_stage (executor st), email_message st)])%list)
      as Hout.
    { rewrite (get_first_display _ Hback Huser Hmarker). simpl.
      apply send_email_outbox. }
    assert (outbox (serve_gets arrivals (get st).1) = outbox (get st).1) as Hlater.
    { apply serve_gets_marker_present. by rewrite Hset. }
    split_and!; [done..|].
    rewrite Hlater, Hout, length_app. simpl. lia.
  - intros Hsent. split.
    + by apply get_marker_present.
    + by apply serve_gets_marker_present.
  - apply get_came_back_no_send.
Qed.

(** C7: every response submission is declared invalid and handled by
    [challenge_invalid], so that no submission makes the stage advance;
    with a pending user in the plan context the submission queues exactly
    one more verification mail, the one [send_email] builds, and the answer
    is the challenge of the stage, the same that a GET renders, shown again
    with the errors of the response. *)
Theorem response_always_invalid_resends st data :
  ∃ errs,
    is_valid data = inl errs
    ∧ post st data = challenge_invalid st {| initial_data := data; errors := errs |}
    ∧ (post st data).2 ≠ StageOk
    ∧ (is_Some (ctx st !! PLAN_CONTEXT_PENDING_USER) →
       outbox (post st data).1
       = (outbox st ++ [(current_stage (executor st), email_message st)])%list
       ∧ length (outbox (post st data).1) = S (length (outbox st))
       ∧ (post st data).2 = HttpChallengeResponse (get_challenge st) errs
       ∧ (ChallengeStageView_get st).2 = HttpChallengeResponse (get_challenge st) []).
Proof.
  assert (∃ errs, is_valid data = inl errs) as [errs Herrs].
  { unfold is_valid, validate. destruct (to_internal_value data); eauto. }
  exists errs. unfold post. rewrite Herrs. split_and!; [done..| |].
  - unfold challenge_invalid. by destruct (bool_decide _).
  - intros Huser. unfold challenge_invalid.
    rewrite (proj2 (in_context _ _) Huser). simpl.
    rewrite send_email_outbox, length_app. simpl.
    split_and!; [done|lia|done..].
Qed.

(** C9: the one message that [send_email] queues is addressed to the value
    of the plan context under the key "email" when that value is present
    and truthy, and to the stored address of the pending user otherwise. *)
Theorem send_email_recipient st :
  ∃ message,
    outbox (send_email st)
    = (outbox st ++ [(current_stage (executor st), message)])%list
    ∧ to message = [recipient_spec st].
Proof. exists (email_message st). split; [apply send_email_outbox|done]. Qed.

(** C10: [challenge_valid] is the base class's [challenge_invalid] on the
    same response: it gives the same answer, leaves the state as it was and
    queues no mail, whereas the stage's own [challenge_invalid] queues one
    mail whenever the plan context holds a pending user. *)
Theorem challenge_valid_is_base_invalid st response :
  challenge_valid st response = ChallengeStageView_challenge_invalid st response
  ∧ (challenge_valid st response).1 = st
  ∧ outbox (challenge_valid st response).1 = outbox st
  ∧ length (outbox (challenge_invalid st response).1)
    = length (outbox st)
      + match ctx st !! PLAN_CONTEXT_PENDING_USER with Some _ => 1 | None => 0 end.
Proof.
  split_and!; [done..|].
  unfold challenge_invalid.
  destruct (ctx st !! PLAN_CONTEXT_PENDING_USER) as [u|] eqn:Huser.
  - rewrite (proj2 (in_context _ _)) by (by rewrite Huser). simpl.
    rewrite send_email_outbox, length_app. done.
  - rewrite (proj2 (not_in_context _ _) Huser). simpl. lia.
Qed.

End StageProperties.

(** ** The stage run on examples *)

Section Examples.
#[local] Existing Instances sample_django sample_authentik.

(** Alice comes back from the link of her mail: the stage is satisfied and
    her account is activated. *)
Lemma get_restored_stage_ok_witness :
  (get returning_alice).2 = StageOk
  ∧ is_active (get_pending_user (get returning_alice).1) = true.
Proof.
  destruct (get_restored_stage_ok returning_alice (VBool true))
    as (Hok & _ & Hactive).
  - apply elem_of_dom. vm_compute. eauto.
  - by vm_compute.
  - done.
  - intros _. by vm_compute.
  - split; [exact Hok|]. by apply Hactive.
Defined.

(** Without a pending user a first GET is answered by
    [executor.stage_invalid()] and nothing is queued. *)
Lemma no_pending_user_no_email_witness :
  outbox (get nobody_visit).1 = outbox nobody_visit
  ∧ (get nobody_visit).2 = StageInvalid.
Proof.
  destruct (no_pending_user_no_email nobody_visit) as (Hout & _ & Hget & _).
  - by vm_compute.
  - split; [exact Hout|]. by rewrite Hget.
Defined.

(** The claim of C2 fails as worded: on a stage that does not activate
    users, a GET that returns from the mail link on a plan without a
    pending user is answered by [executor.stage_ok()], and a response
    submission on a plan without a pending user is answered by the
    challenge rendered again; neither is [executor.stage_invalid()]. *)
Lemma no_pending_user_not_always_stage_invalid :
  ctx returning_nobody_plain !! PLAN_CONTEXT_PENDING_USER = None
  ∧ (get returning_nobody_plain).2 = StageOk
  ∧ (get returning_nobody_plain).2 ≠ StageInvalid
  ∧ ctx nobody_visit !! PLAN_CONTEXT_PENDING_USER = None
  ∧ (post nobody_visit ∅).2
    = HttpChallengeResponse (get_challenge nobody_visit)
        [{| detail := "email-sent"; code := "email-sent" |}]
  ∧ (post nobody_visit ∅).2 ≠ StageInvalid.
Proof. vm_compute. split_and!; done. Qed.

(** Alice's first GET queues one mail; two more GETs, one of them a
    return from the link half an hour later, queue none. *)
Lemma initial_email_sent_once_witness :
  length (outbox (serve_gets
                    [(request first_visit, minute);
                     ({| session := returning_session; user := anonymous |},
                      30 * minute)%Z]
                    (get first_visit).1)) = 1.
Proof.
  refine (proj2 (proj2 (proj2
            (proj1 (initial_email_sent_once first_visit _) _ _ _)))).
  - by vm_compute.
  - vm_compute. eauto.
  - by vm_compute.
Defined.

(** The claim of C3 fails as worded: alice's GET on return from the link
    finds a pending user and no marker, yet it queues no mail and sets no
    marker. *)
Lemma marker_absent_get_without_send :
  is_Some (ctx returning_alice !! PLAN_CONTEXT_PENDING_USER)
  ∧ ctx returning_alice !! PLAN_CONTEXT_EMAIL_SENT = None
  ∧ outbox (get returning_alice).1 = outbox returning_alice
  ∧ length (outbox (get returning_alice).1) ≠ S (length (outbox returning_alice))
  ∧ ctx (get returning_alice).1 !! PLAN_CONTEXT_EMAIL_SENT = None.
Proof. vm_compute. split_and!; [eauto|done|done|discriminate|done]. Qed.

(** Alice asks for her token, and again ten minutes later: same key. *)
Lemma get_token_twice_same_key_witness :
  FlowToken.key (get_token (with_clock (10 * minute) (get_token first_visit).1)).2
  = FlowToken.key (get_token first_visit).2.
Proof.
  refine (proj1 (get_token_twice_same_key first_visit
                   (with_clock (10 * minute) (get_token first_visit).1) _ _ _ _)).
  - done.
  - done.
  - done.
  - by vm_compute.
Defined.

(** A stage with [token_expiry = 15] creates a token that expires sixteen
    minutes after its creation. *)
Lemma get_token_created_expiry_witness :
  FlowToken.expires (get_token first_visit).2 = (16 * minute)%Z
  ∧ flow_tokens (get_token first_visit).1 = [(get_token first_visit).2].
Proof.
  destruct (get_token_created_expiry first_visit) as (Hexp & _ & Htable).
  - by vm_compute.
  - split; [by rewrite Hexp|exact Htable].
Defined.

(** The claim of C5 fails as worded: with [token_expiry = 16] the created
    token expires seventeen minutes, not sixteen, after its creation. *)
Lemma created_expiry_is_not_token_expiry :
  objects_filter_first (token_identifier first_visit_16)
    (flow_tokens first_visit_16) = None
  ∧ token_expiry (current_stage (executor first_visit_16)) = 16%Z
  ∧ FlowToken.expires (get_token first_visit_16).2
    ≠ (now first_visit_16
       + timedelta (token_expiry (current_stage (executor first_visit_16))))%Z
  ∧ FlowToken.expires (get_token first_visit_16).2
    = (now first_visit_16 + 17 * minute)%Z.
Proof. vm_compute. split_and!; done. Qed.

(** At the very instant of its expiry alice's stored token is returned as
    it is. *)
Lemma get_token_existing_unchanged_witness :
  get_token (stored_visit (16 * minute) (16 * minute))
  = (stored_visit (16 * minute) (16 * minute), sample_token (16 * minute)).
Proof.
  refine (proj1 (get_token_existing_unchanged
                   (stored_visit (16 * minute) (16 * minute)) 0
                   (sample_token (16 * minute)) _ _)).
  - by vm_compute.
  - by vm_compute.
Defined.

(** One response submission by alice: one more mail. *)
Lemma response_always_invalid_resends_witness :
  length (outbox (post first_visit ∅).1) = 1.
Proof.
  destruct (response_always_invalid_resends first_visit ∅)
    as (errs & _ & _ & _ & Hresend).
  destruct Hresend as (_ & Hlen & _).
  - vm_compute. eauto.
  - exact Hlen.
Defined.

(** A minute after its expiry alice's stored token is rotated: new key,
    later expiry, same identifier. *)
Lemma get_token_rotates_expired_witness :
  FlowToken.identifier (get_token (stored_visit (17 * minute) (16 * minute))).2
  = "ak-email-stage-verify-alice"
  ∧ FlowToken.key (get_token (stored_visit (17 * minute) (16 * minute))).2 ≠ "0"
  ∧ (16 * minute
     < FlowToken.expires (get_token (stored_visit (17 * minute) (16 * minute))).2)%Z.
Proof.
  destruct (get_token_rotates_expired
              (stored_visit (17 * minute) (16 * minute)) 0
              (sample_token (16 * minute)))
    as (Hid & Hkey & Hexp & _).
  - by vm_compute.
  - by vm_compute.
  - split_and!; [exact Hid|exact Hkey|exact Hexp].
Defined.

End Examples.

(** ** Further properties of the token lookup *)

Section TokenLookup.
Context {dj : Django} {ak : Authentik}.

Implicit Types (st : State) (token : FlowToken.t).

Lemma with_flow_tokens_same st : with_flow_tokens (flow_tokens st) st = st.
Proof. by destruct st. Qed.

(** Replacing a row that a filter drops by another row that it drops
    leaves the filtered list as it was. *)
Lemma filter_insert_dropped {A} (P : A → Prop) `{!∀ x, Decision (P x)}
    (l : list A) i x y :
  l !! i = Some x → ¬ P x → ¬ P y → filter P (<[i := y]> l) = filter P l.
Proof.
  revert i. induction l as [|z l IH]; intros [|i] Hi Hx Hy; simplify_eq/=.
  - by rewrite !filter_cons_False.
  - rewrite !filter_cons. by rewrite (IH i).
Qed.

(** [get_token] writes the token table and nothing else: request, plan
    context, users, clock, queued mail and flash messages are as before. *)
Theorem get_token_writes_only_tokens st :
  (get_token st).1 = with_flow_tokens (flow_tokens (get_token st).1) st.
Proof.
  unfold get_token.
  destruct (objects_filter_first _ _) as [[row token]|]; simpl; [|done].
  destruct (is_expired st token); simpl; [done|].
  by rewrite with_flow_tokens_same.
Qed.

(** The token that [get_token] returns carries the identifier of the stage
    and pending user, is a row of the table afterwards, and is the row that
    a lookup by that identifier finds. *)
Theorem get_token_result_is_found st :
  FlowToken.identifier (get_token st).2 = token_identifier st
  ∧ ∃ row,
      flow_tokens (get_token st).1 !! row = Some (get_token st).2
      ∧ objects_filter_first (token_identifier st) (flow_tokens (get_token st).1)
        = Some (row, (get_token st).2).
Proof.
  destruct (get_token_stored st) as [row Hrow].
  destruct (filter_first_lookup _ _ _ _ Hrow) as [Hlookup Hid]. eauto.
Qed.

(** [get_token] leaves the rows of every other identifier as they were, in
    the same order; the table grows by one row when no token existed for
    the identifier and keeps its length otherwise. *)
Theorem get_token_other_rows st :
  filter (λ t, FlowToken.identifier t ≠ token_identifier st)
    (flow_tokens (get_token st).1)
  = filter (λ t, FlowToken.identifier t ≠ token_identifier st) (flow_tokens st)
  ∧ length (flow_tokens (get_token st).1)
    = length (flow_tokens st)
      + match objects_filter_first (token_identifier st) (flow_tokens st) with
        | Some _ => 0
        | None => 1
        end.
Proof.
  destruct (objects_filter_first (token_identifier st) (flow_tokens st))
    as [[row token]|] eqn:Hfind.
  - destruct (filter_first_lookup _ _ _ _ Hfind) as [Hrow Hid].
    destruct (is_expired st token) eqn:He.
    + rewrite (get_token_stale _ _ _ Hfind He). simpl. split.
      * apply (filter_insert_dropped _ _ _ token); [done|..]; simpl; naive_solver.
      * rewrite length_insert. lia.
    + rewrite (get_token_fresh _ _ _ Hfind He). simpl. split; [done|lia].
  - rewrite (get_token_absent _ Hfind). simpl. split.
    + rewrite filter_app, filter_cons_False by (simpl; naive_solver).
      by rewrite filter_nil, app_nil_r.
    + rewrite length_app. simpl. lia.
Qed.

(** A table with at most one row per identifier stays so through
    [get_token]: the lookup before the creation keeps identifiers unique. *)
Theorem get_token_one_row_per_identifier st :
  NoDup (FlowToken.identifier <$> flow_tokens st) →
  NoDup (FlowToken.identifier <$> flow_tokens (get_token st).1).
Proof.
  intros Hnodup.
  destruct (objects_filter_first (token_identifier st) (flow_tokens st))
    as [[row token]|] eqn:Hfind.
  - destruct (filter_first_lookup _ _ _ _ Hfind) as [Hrow Hid].
    destruct (is_expired st token) eqn:He.
    + rewrite (get_token_stale _ _ _ Hfind He). simpl.
      rewrite list_fmap_insert. simpl.
      rewrite list_insert_id; [done|]. by rewrite list_lookup_fmap, Hrow.
    + by rewrite (get_token_fresh _ _ _ Hfind He).
  - rewrite (get_token_absent _ Hfind). simpl.
    rewrite fmap_app. apply NoDup_app. split_and!; [done| |].
    + intros identifier Hin Hnew. simpl in Hnew.
      apply list_elem_of_singleton in Hnew as ->.
      apply list_elem_of_fmap in Hin as (t & Hid & Hin).
      unfold objects_filter_first in Hfind.
      apply list_find_None in Hfind.
      by apply (proj1 (Forall_forall _ _) Hfind t Hin).
    + simpl. apply NoDup_singleton.
Qed.

(** When the stage's [token_expiry] is at least [-1], the token that
    [get_token] returns is never expired at the instant of the call,
    whether it was created, found or rotated. *)
Theorem get_token_result_not_expired st :
  (-1 ≤ token_expiry (current_stage (executor st)))%Z →
  is_expired st (get_token st).2 = false.
Proof.
  intros Hexpiry. apply is_expired_false.
  destruct (objects_filter_first (token_identifier st) (flow_tokens st))
    as [[row token]|] eqn:Hfind.
  - destruct (is_expired st token) eqn:He.
    + rewrite (get_token_stale _ _ _ Hfind He). simpl. lia.
    + rewrite (get_token_fresh _ _ _ Hfind He). simpl.
      by apply is_expired_false.
  - rewrite (get_token_absent _ Hfind). simpl. unfold timedelta. lia.
Qed.

(** The edge of the added minute: a token created for a stage whose
    [token_expiry] is below [-1], and only for such a stage, is expired
    from the instant of its creation. *)
Theorem get_token_created_already_expired st :
  objects_filter_first (token_identifier st) (flow_tokens st) = None →
  (is_expired st (get_token st).2 = true
   ↔ (token_expiry (current_stage (executor st)) < -1)%Z).
Proof.
  intros Hfind. rewrite is_expired_true, (get_token_absent _ Hfind). simpl.
  unfold timedelta. lia.
Qed.

End TokenLookup.

(** ** Further properties of the request handlers *)

Section StageBehaviour.
Context {dj : Django} {ak : Authentik}.

Implicit Types (st : State) (response : ChallengeResponse).

(** The link and the expiry printed in a mail are those of a stored token:
    after [send_email] a lookup by the identifier of the stage and user
    finds a token whose key is the one in the mailed link and whose expiry
    is the one shown; the mail names the pending user. *)
Theorem send_email_link_is_stored st :
  ∃ row token message,
    objects_filter_first (token_identifier st) (flow_tokens (send_email st))
    = Some (row, token)
    ∧ outbox (send_email st)
      = (outbox st ++ [(current_stage (executor st), message)])%list
    ∧ ctx_url (template_context message)
      = get_full_url st [(QS_KEY_TOKEN, FlowToken.key token)]
    ∧ ctx_expires (template_context message) = FlowToken.expires token
    ∧ ctx_user (template_context message) = get_pending_user st.
Proof.
  destruct (get_token_stored st) as [row Hrow].
  exists row, (get_token st).2, (email_message st).
  rewrite send_email_outbox. split_and!; try done.
  by rewrite send_email_effect.
Qed.

(** What [email_message] reads of a state. *)
Lemma email_message_ext st st' :
  request st' = request st → executor st' = executor st →
  get_token st' = (st', (get_token st).2) →
  email_message st' = email_message st.
Proof.
  intros Hreq Hexec Htoken.
  unfold email_message, recipient_spec, get_full_url, get_pending_user.
  by rewrite Htoken, Hreq, Hexec.
Qed.

(** Sending again before the token has expired repeats the first mail: at
    any instant [t] at which the token of the first mail is not expired, a
    second [send_email] builds the same message, with the same link, and
    leaves the token table as it is. *)
Theorem resend_repeats_message st t :
  is_expired (with_clock t (send_email st)) (get_token st).2 = false →
  email_message (with_clock t (send_email st)) = email_message st
  ∧ flow_tokens (send_email (with_clock t (send_email st)))
    = flow_tokens (send_email st).
Proof.
  intros Hlive. set (st2 := with_clock t (send_email st)).
  destruct (send_email_frame st) as (Hreq & Hexec & _).
  assert (token_identifier st2 = token_identifier st) as Hid.
  { unfold token_identifier, get_pending_user. simpl. by rewrite Hreq, Hexec. }
  destruct (get_token_stored st) as [row Hrow].
  assert (get_token st2 = (st2, (get_token st).2)) as Htoken.
  { apply (get_token_fresh _ row); [|done].
    rewrite Hid. unfold st2. simpl. by rewrite send_email_effect. }
  split.
  - by apply email_message_ext.
  - rewrite (send_email_effect st2), Htoken. done.
Qed.

(** The one path of [get] that ends without an answer: on a return from
    the mail link to a stage that activates users, when the pending user is
    Django's anonymous user (no pending user in the plan, visitor not
    logged in), [user.save()] raises [NotImplementedError].  The success
    message is recorded by then; no row is written, no mail queued and no
    token touched. *)
Theorem get_anonymous_activation_raises st :
  came_back_from_link st = true →
  activate_user_on_success (current_stage (executor st)) = true →
  is_anonymous (get_pending_user st) = true →
  (get st).2 = Raised NotImplementedError
  ∧ users (get st).1 = users st
  ∧ outbox (get st).1 = outbox st
  ∧ flow_tokens (get st).1 = flow_tokens st
  ∧ messages (get st).1
    = (messages st ++ [(SUCCESS, gettext "Successfully verified Email.")])%list.
Proof.
  intros Hback Hact Hanon. rewrite (get_came_back _ Hback), Hact, Hanon.
  destruct (before_save_frame st) as (? & ? & ? & _).
  split_and!; try done.
  unfold before_save, assign_pending_user. simpl.
  by destruct (ctx st !! PLAN_CONTEXT_PENDING_USER) as [[| | | |u0]|].
Qed.

(** One GET queues one mail at most, and when it queues one the marker is
    set afterwards. *)
Lemma get_sends_at_most_once st :
  outbox (get st).1 = outbox st
  ∨ (length (outbox (get st).1) = S (length (outbox st))
     ∧ is_Some (ctx (get st).1 !! PLAN_CONTEXT_EMAIL_SENT)).
Proof.
  destruct (ctx st !! PLAN_CONTEXT_EMAIL_SENT) as [v|] eqn:Hmarker.
  { left. apply get_marker_present. by rewrite Hmarker. }
  destruct (came_back_from_link st) eqn:Hback.
  { left. by apply get_came_back_no_send. }
  destruct (ctx st !! PLAN_CONTEXT_PENDING_USER) as [u|] eqn:Huser.
  - right. rewrite get_first_display by (by rewrite ?Huser). simpl.
    rewrite send_email_outbox, length_app, lookup_insert_eq. simpl.
    split; [lia|eauto].
  - left. by rewrite (get_no_pending_user _ Hback Huser).
Qed.

(** Any series of GETs on one plan, from any state and with any sessions
    and instants, queues one mail at most. *)
Theorem serve_gets_at_most_one_mail arrivals st :
  (length (outbox (serve_gets arrivals st)) ≤ S (length (outbox st)))%nat.
Proof.
  revert st. induction arrivals as [|[r t] rest IH]; intros st; simpl; [lia|].
  destruct (get_sends_at_most_once (arrive r t st)) as [Hout|[Hlen Hmarker]].
  - specialize (IH (get (arrive r t st)).1). rewrite Hout in IH. done.
  - rewrite (serve_gets_marker_present _ _ Hmarker), Hlen. done.
Qed.

Lemma send_email_context st : ctx (send_email st) = ctx st.
Proof. destruct (send_email_frame st) as (_ & Hexec & _). by rewrite Hexec. Qed.

Lemma post_as_challenge_invalid st data :
  ∃ errs,
    post st data = challenge_invalid st {| initial_data := data; errors := errs |}.
Proof.
  unfold post, is_valid, validate. destruct (to_internal_value data); eauto.
Qed.

Lemma post_frame st data :
  executor (post st data).1 = executor st
  ∧ request (post st data).1 = request st
  ∧ users (post st data).1 = users st.
Proof.
  destruct (post_as_challenge_invalid st data) as [errs ->].
  unfold challenge_invalid. destruct (bool_decide _); simpl; [done|].
  destruct (send_email_frame st) as (? & ? & ? & _). done.
Qed.

Lemma post_outbox_length st data :
  is_Some (ctx st !! PLAN_CONTEXT_PENDING_USER) →
  length (outbox (post st data).1) = S (length (outbox st)).
Proof.
  intros Huser. destruct (post_as_challenge_invalid st data) as [errs ->].
  unfold challenge_invalid. rewrite (proj2 (in_context _ _) Huser). simpl.
  rewrite send_email_outbox, length_app. simpl. lia.
Qed.

(** A response submission writes neither the plan context, nor the request,
    nor the users table: it sets no marker and activates nobody. *)
Theorem post_keeps_plan_and_users st data :
  executor (post st data).1 = executor st
  ∧ request (post st data).1 = request st
  ∧ users (post st data).1 = users st.
Proof. apply post_frame. Qed.

(** A GET never removes a key of the plan context, and the only key it can
    add is the marker [email_sent]. *)
Theorem get_context_keys st :
  dom (ctx st) ⊆ dom (ctx (get st).1)
  ∧ dom (ctx (get st).1) ⊆ dom (ctx st) ∪ {[PLAN_CONTEXT_EMAIL_SENT]}.
Proof.
  destruct (came_back_from_link st) eqn:Hback.
  - assert (dom (ctx (get st).1) = dom (ctx st)) as ->; [|set_solver].
    rewrite (get_came_back _ Hback).
    destruct (activate_user_on_success _); [|done].
    destruct (is_anonymous _); apply before_save_dom.
  - unfold get. rewrite Hback. destruct (bool_decide (PLAN_CONTEXT_PENDING_USER ∉ dom (ctx st)));
      [simpl; set_solver|].
    destruct (bool_decide (PLAN_CONTEXT_EMAIL_SENT ∉ dom (ctx st)));
      simpl; [|set_solver].
    rewrite dom_insert_L, send_email_context. set_solver.
Qed.

Lemma get_without_activation st :
  came_back_from_link st && activate_user_on_success (current_stage (executor st))
  = false →
  users (get st).1 = users st
  ∧ get_pending_user (get st).1 = get_pending_user st
  ∧ request (get st).1 = request st.
Proof.
  intros Hcond.
  destruct (came_back_from_link st) eqn:Hback; simpl in Hcond.
  - by rewrite (get_came_back _ Hback), Hcond.
  - unfold get. rewrite Hback. destruct (bool_decide (PLAN_CONTEXT_PENDING_USER ∉ dom (ctx st)));
      [done|].
    destruct (bool_decide (PLAN_CONTEXT_EMAIL_SENT ∉ dom (ctx st)));
      simpl; [|done].
    destruct (send_email_frame st) as (Hreq & Hexec & Husers & _).
    split_and!; [done| |done].
    unfold get_pending_user. simpl.
    rewrite lookup_insert_ne by done. by rewrite Hreq, Hexec.
Qed.

(** Only a return from the mail link on a stage that activates users
    writes the users table or the pending user: any other GET leaves both
    as they were. *)
Theorem get_writes_user_only_on_return st :
  came_back_from_link st && activate_user_on_success (current_stage (executor st))
  = false →
  users (get st).1 = users st
  ∧ get_pending_user (get st).1 = get_pending_user st
  ∧ request (get st).1 = request st.
Proof. apply get_without_activation. Qed.

(** A GET keeps the identity of the pending user, its primary key, name and
    address, and never turns [is_active] off. *)
Theorem get_keeps_pending_user st :
  user_pk (get_pending_user (get st).1) = user_pk (get_pending_user st)
  ∧ username (get_pending_user (get st).1) = username (get_pending_user st)
  ∧ email (get_pending_user (get st).1) = email (get_pending_user st)
  ∧ (is_active (get_pending_user st) = true →
     is_active (get_pending_user (get st).1) = true).
Proof.
  destruct (came_back_from_link st
            && activate_user_on_success (current_stage (executor st))) eqn:Hcond.
  - apply andb_true_iff in Hcond as [Hback Hact].
    assert (get_pending_user (get st).1
            = set_is_active true (get_pending_user st)) as ->; [|done].
    rewrite (get_came_back _ Hback), Hact.
    destruct (is_anonymous _); exact (before_save_pending_user st).
  - destruct (get_without_activation _ Hcond) as (_ & -> & _). done.
Qed.

(** A GET that is no return from the mail link is not answered by
    [executor.stage_ok()]. *)
Lemma get_stage_ok_came_back st :
  (get st).2 = StageOk → came_back_from_link st = true.
Proof.
  destruct (came_back_from_link st) eqn:Hback; [done|].
  unfold get. rewrite Hback.
  destruct (bool_decide (PLAN_CONTEXT_PENDING_USER ∉ dom (ctx st))); [done|].
  by destruct (bool_decide (PLAN_CONTEXT_EMAIL_SENT ∉ dom (ctx st))).
Qed.

Lemma before_save_came_back st us :
  came_back_from_link (with_users us (before_save st)) = came_back_from_link st.
Proof.
  unfold came_back_from_link.
  destruct (before_save_frame st) as (_ & _ & _ & _ & Hsession & _).
  change (request (with_users us (before_save st))) with (request (before_save st)).
  change (ctx (with_users us (before_save st))) with (ctx (before_save st)).
  by rewrite Hsession, before_save_context.
Qed.

(** Assigning [is_active] again on the state that a saved return left
    changes neither the plan context nor the request. *)
Lemma before_save_again st us :
  ctx (before_save (with_users us (before_save st))) = ctx (before_save st)
  ∧ request (before_save (with_users us (before_save st)))
    = request (before_save st).
Proof.
  unfold before_save, assign_pending_user, get_pending_user. simpl.
  destruct (ctx st !! PLAN_CONTEXT_PENDING_USER) as [[| | | |u0]|] eqn:Huser;
    simpl; rewrite ?Huser, ?lookup_insert_eq; simpl;
    rewrite ?insert_insert_eq; done.
Qed.

(** Following the link a second time changes nothing but the flash
    messages: when a GET was answered by [executor.stage_ok()], the same
    GET on the state it left is answered by [executor.stage_ok()] again and
    leaves the pending user, the users table, the plan context, the token
    table and the queued mail as the first GET left them. *)
Theorem get_return_twice st :
  (get st).2 = StageOk →
  (get (get st).1).2 = StageOk
  ∧ get_pending_user (get (get st).1).1 = get_pending_user (get st).1
  ∧ users (get (get st).1).1 = users (get st).1
  ∧ ctx (get (get st).1).1 = ctx (get st).1
  ∧ flow_tokens (get (get st).1).1 = flow_tokens st
  ∧ outbox (get (get st).1).1 = outbox st.
Proof.
  intros Hok. pose proof (get_stage_ok_came_back _ Hok) as Hback.
  revert Hok. rewrite (get_came_back _ Hback).
  destruct (activate_user_on_success (current_stage (executor st))) eqn:Hact.
  - destruct (is_anonymous (get_pending_user st)) eqn:Hanon; [done|].
    intros _. cbn [fst].
    set (u := set_is_active true (get_pending_user st)).
    set (st1 := with_users (<[user_pk (get_pending_user st) := u]>
                              (users (before_save st))) (before_save st)).
    destruct (before_save_frame st) as (Hout & Htok & Husers & _ & _ & _ & Hstage).
    assert (get_pending_user st1 = u) as Hu1.
    { exact (before_save_pending_user st). }
    assert (came_back_from_link st1 = true) as Hback1.
    { unfold st1. by rewrite before_save_came_back. }
    rewrite (get_came_back _ Hback1), Hu1.
    change (current_stage (executor st1)) with (current_stage (executor (before_save st))).
    rewrite Hstage, Hact. simpl. rewrite Hanon. cbn [fst snd].
    destruct (before_save_frame st1) as (Hout1 & Htok1 & Husers1 & _).
    destruct (before_save_again st (<[user_pk (get_pending_user st) := u]>
                                      (users (before_save st)))) as [Hctx Hreq].
    fold st1 in Hctx, Hreq.
    split_and!; [done| | |done| |].
    + unfold get_pending_user. simpl. by rewrite Hctx, Hreq.
    + simpl. rewrite Husers1. simpl. by rewrite insert_insert_eq.
    + simpl. by rewrite Htok1.
    + simpl. by rewrite Hout1.
  - intros _. cbn [fst].
    rewrite get_came_back by done. simpl. by rewrite Hact.
Qed.

(** Every response submission on a plan with a pending user queues one
    mail, whether or not the marker is set: after any series of
    submissions the queue has grown by their number. *)
Theorem serve_posts_one_mail_each arrivals st :
  is_Some (ctx st !! PLAN_CONTEXT_PENDING_USER) →
  length (outbox (serve_posts arrivals st))
  = length (outbox st) + length arrivals.
Proof.
  revert st. induction arrivals as [|[[r t] data] rest IH]; intros st Huser;
    simpl; [lia|].
  destruct (post_frame (arrive r t st) data) as (Hexec & _).
  rewrite IH by (by rewrite Hexec).
  rewrite (post_outbox_length (arrive r t st) data Huser). simpl. lia.
Qed.

End StageBehaviour.

(** ** More examples *)

Section MoreExamples.
#[local] Existing Instances sample_django sample_authentik.

(** With alice's token stored alone, a lookup keeps identifiers unique. *)
Lemma get_token_one_row_per_identifier_witness :
  NoDup (FlowToken.identifier
           <$> flow_tokens (get_token (stored_visit (17 * minute) (16 * minute))).1).
Proof.
  apply (get_token_one_row_per_identifier
           (stored_visit (17 * minute) (16 * minute))).
  vm_compute. apply NoDup_singleton.
Defined.

(** The token created on alice's first visit is not expired. *)
Lemma get_token_result_not_expired_witness :
  is_expired first_visit (get_token first_visit).2 = false.
Proof. apply (get_token_result_not_expired first_visit). by vm_compute. Defined.

(** With [token_expiry = -5] the created token is expired from the start. *)
Lemma get_token_created_already_expired_witness :
  is_expired negative_expiry_visit (get_token negative_expiry_visit).2 = true.
Proof.
  apply (get_token_created_already_expired negative_expiry_visit).
  - by vm_compute.
  - by vm_compute.
Defined.

(** Ten minutes after the first mail a second one carries the same link. *)
Lemma resend_repeats_message_witness :
  email_message (with_clock (10 * minute) (send_email first_visit))
  = email_message first_visit.
Proof.
  refine (proj1 (resend_repeats_message first_visit (10 * minute) _)).
  by vm_compute.
Defined.

(** Alice's first GET writes no user. *)
Lemma get_writes_user_only_on_return_witness :
  users (get first_visit).1 = users first_visit.
Proof.
  refine (proj1 (get_writes_user_only_on_return first_visit _)). by vm_compute.
Defined.

(** Alice, once active, returns from the link to a stage that activates
    users: her account is saved again and stays active, under her name. *)
Lemma get_keeps_pending_user_witness :
  is_active (get_pending_user (get returning_active_alice).1) = true
  ∧ username (get_pending_user (get returning_active_alice).1) = "alice".
Proof.
  destruct (get_keeps_pending_user returning_active_alice)
    as (_ & Hname & _ & Hactive).
  split; [apply Hactive; by vm_compute|by rewrite Hname].
Defined.

(** A visitor who is not logged in returns from the link on a plan without
    a pending user: saving the anonymous user raises. *)
Lemma get_anonymous_activation_raises_witness :
  (get returning_nobody).2 = Raised NotImplementedError
  ∧ users (get returning_nobody).1 = users returning_nobody.
Proof.
  destruct (get_anonymous_activation_raises returning_nobody)
    as (Hraise & Husers & _).
  - by vm_compute.
  - by vm_compute.
  - by vm_compute.
  - by split.
Defined.

(** Alice follows the link twice. *)
Lemma get_return_twice_witness :
  (get (get returning_alice).1).2 = StageOk
  ∧ users (get (get returning_alice).1).1 = users (get returning_alice).1.
Proof.
  destruct (get_return_twice returning_alice) as (Hok & _ & Husers & _).
  - by vm_compute.
  - by split.
Defined.

(** Three submissions by alice, three mails. *)
Lemma serve_posts_one_mail_each_witness :
  length (outbox (serve_posts
                    [(request first_visit, minute, ∅);
                     (request first_visit, (2 * minute)%Z, ∅);
                     (request first_visit, (40 * minute)%Z, ∅)]
                    first_visit)) = 3.
Proof.
  refine (serve_posts_one_mail_each _ first_visit _).
  vm_compute. eauto.
Defined.

End MoreExamples.
